(** * hera: the container event handler (handler.go)

    A shallow embedding of [handler.go]: the dispatch of container
    events, the start and die sequences, the retrying hostname resolver
    and the certificate lookup, together with the properties the
    specification states about them.

    Go errors are modelled by their message, a run-time panic by a
    separate outcome, the process-wide tunnel registry by a finite map,
    and every observable effect (lookups, sleeps, log lines, tunnel
    starts and stops) by an entry in a chronological trace. *)

From Stdlib Require Import Ascii.
From stdpp Require Import gmap strings list fin_maps pretty.

(** ** Values *)

(** A Go [error], identified with the text of [err.Error()]. *)
Definition error : Type := string.

(** The result of running a Go function: a normal return, a returned
    non-nil [error], or a run-time panic. *)
Inductive outcome (A : Type) : Type :=
  | Ok (a : A)
  | Err (e : error)
  | Panic (why : string).
Arguments Ok {A} a.
Arguments Err {A} e.
Arguments Panic {A} why.

Definition aborted {A} (o : outcome A) : Prop :=
  match o with Ok _ => False | _ => True end.

(** The four label names of [handler.go]. *)
Definition heraHostname : string := "hera.hostname".
Definition heraPort : string := "hera.port".
Definition heraIP : string := "hera.ip".
Definition heraProtocol : string := "hera.protocol".

(** The part of Docker's [types.ContainerJSON] the handler reads. *)
Module types.
Record Config := mkConfig {
  Hostname : string;
  Labels : gmap string string }.
Record ContainerJSON := mkContainerJSON {
  ID : string;
  Config_ : Config }.
End types.

(** The part of Docker's [events.Message] the handler reads. *)
Module events.
Record Message := mkMessage {
  Status : string;
  ID : string }.
End events.

(** Modelled from the spec: the [TunnelConfig] struct is declared outside
    [handler.go]; its four fields are those of the composite literal in
    [handleStartEvent]. *)
Record TunnelConfig := mkTunnelConfig {
  IP : string;
  Hostname : string;
  Port : string;
  Protocol : string }.

(** Modelled from the spec: a [Certificate] is an opaque credential bound
    to a root domain; only the domain it was issued for is recorded. *)
Record Certificate := mkCertificate { CertDomain : string }.

(** Modelled from the spec: a [Tunnel] is created from a [TunnelConfig]
    and a [Certificate]. *)
Record Tunnel := mkTunnel {
  Config : TunnelConfig;
  Cert : Certificate }.

(** ** The world the handler runs in *)

(** What the handler does to the outside, in the order it does it. *)
Inductive Effect : Type :=
  | EvLookup (host : string)
  | EvSleep (seconds : nat)
  | EvInfo (msg : string)
  | EvError (msg : string)
  | EvStart (t : Tunnel)
  | EvStop (t : Tunnel).

Record World := mkWorld {
  registry : gmap string Tunnel;
  trace : list Effect }.

(** The collaborators of the handler that live outside [handler.go].
    [LookupHost] is indexed by the number of lookups already made, so a
    resolver may fail a few times and then succeed. *)
Record Env := mkEnv {
  Inspect : string -> error + types.ContainerJSON;
  LookupHost : nat -> string -> error + list string;
  isPublicSuffix : string -> bool;
  FindCertificateForHost : string -> error + Certificate;
  transportStart : Tunnel -> option error;
  transportStop : Tunnel -> option error }.

Fixpoint countLookups (tr : list Effect) : nat :=
  match tr with
  | [] => 0
  | EvLookup _ :: tr' => S (countLookups tr')
  | _ :: tr' => countLookups tr'
  end.

Fixpoint sleptSeconds (tr : list Effect) : nat :=
  match tr with
  | [] => 0
  | EvSleep s :: tr' => s + sleptSeconds tr'
  | _ :: tr' => sleptSeconds tr'
  end.

Definition isTunnelEffect (e : Effect) : bool :=
  match e with EvStart _ | EvStop _ => true | _ => false end.

(** No tunnel was started or stopped in a stretch of trace. *)
Definition noTunnelEffect (tr : list Effect) : Prop :=
  forallb (fun e => negb (isTunnelEffect e)) tr = true.

(** ** A state, error and panic monad *)

Definition M (A : Type) : Type := World -> outcome A * World.

Definition ret {A} (a : A) : M A := fun w => (Ok a, w).

Definition bind {A B} (m : M A) (k : A -> M B) : M B :=
  fun w =>
    match m w with
    | (Ok a, w') => k a w'
    | (Err e, w') => (Err e, w')
    | (Panic why, w') => (Panic why, w')
    end.

Notation "'do' x <- m ; k" := (bind m (fun x => k))
  (at level 10, x name, m at level 100, k at level 200, only parsing).
Notation "'run' m ; k" := (bind m (fun _ => k))
  (at level 10, m at level 100, k at level 200, only parsing).

(** [return err] with a non-nil error. *)
Definition fail {A} (e : error) : M A := fun w => (Err e, w).

Definition panic {A} (why : string) : M A := fun w => (Panic why, w).

Definition emit (ev : Effect) : M unit :=
  fun w => (Ok tt, mkWorld (registry w) (trace w ++ [ev])).

(** A pure call returning [(T, error)], followed by
    [if err != nil { return err }]. *)
Definition try {A} (r : error + A) : M A :=
  match r with
  | inl e => fail e
  | inr a => ret a
  end.

(** The slice expression [s[:n]] of a Go string: a run-time panic when
    [n] exceeds the length in bytes. *)
Definition sliceTo (n : nat) (s : string) : M string :=
  if (String.length s <? n)%nat
  then panic "runtime error: slice bounds out of range"
  else ret (String.substring 0 n s).

(** The index expression [xs[0]] of a Go slice. *)
Definition index0 (xs : list string) : M string :=
  match xs with
  | [] => panic "runtime error: index out of range"
  | x :: _ => ret x
  end.

(** ** The public-suffix reduction *)

(** A hostname as its dot-separated labels, and back. *)
Fixpoint labels (s : string) : list string :=
  match s with
  | EmptyString => [""]
  | String c s' =>
      if Ascii.eqb c "."%char then "" :: labels s'
      else match labels s' with
           | l :: ls => String c l :: ls
           | [] => [String c ""]
           end
  end.

Fixpoint joinDot (ls : list string) : string :=
  match ls with
  | [] => ""
  | [l] => l
  | l :: ls' => l +:+ "." +:+ joinDot ls'
  end.

(** The public suffix of a hostname, as labels: its longest suffix that
    the list has as a public suffix, or, when the list has none, its last
    label (the list's default rule). *)
Fixpoint publicSuffix (isPS : string -> bool) (ls : list string)
    : list string :=
  match ls with
  | [] => []
  | l :: rest =>
      if isPS (joinDot ls) then ls
      else match rest with
           | [] => [l]
           | _ :: _ => publicSuffix isPS rest
           end
  end.

(** A hostname that starts or ends with a dot, or has two dots in a row:
    one of its several labels is empty. *)
Definition hasEmptyLabel (ls : list string) : bool :=
  match ls with
  | [_] => false
  | _ => existsb (String.eqb "") ls
  end.

(** A string between double quotes. *)
Definition quoted (s : string) : string :=
  String "034"%char (s +:+ String "034"%char "").

Definition emptyLabelError (domain : string) : error :=
  "publicsuffix: empty label in domain " +:+ quoted domain.

Definition cannotDeriveError (domain : string) : error :=
  "publicsuffix: cannot derive eTLD+1 for domain " +:+ quoted domain.

Section Handler.

Context (env : Env).

(** [publicsuffix.EffectiveTLDPlusOne] belongs to a library outside the
    repository and is modelled on what the library does: a hostname with
    an empty label is refused; otherwise its public suffix is its longest
    suffix in the list, or its last label when the list has none; a
    hostname that is no longer than its public suffix is refused; any
    other hostname is reduced to its public suffix and the one label
    before it. The list is [isPublicSuffix]. *)
Definition EffectiveTLDPlusOne (domain : string) : error + string :=
  let ls := labels domain in
  if hasEmptyLabel ls then inl (emptyLabelError domain)
  else
    let suffix := publicSuffix (isPublicSuffix env) ls in
    if (length ls <=? length suffix)%nat
    then inl (cannotDeriveError domain)
    else inr (joinDot (drop (length ls - length suffix - 1) ls)).

(** ** handler.go *)

(** [getLabel]: the value of a label, or the empty string. *)
Definition getLabel (name : string) (container : types.ContainerJSON)
    : string :=
  match types.Labels (types.Config_ container) !! name with
  | None => ""
  | Some value => value
  end.

(** [getRootDomain]: the root domain of a hostname. *)
Definition getRootDomain (hostname : string) : error + string :=
  match EffectiveTLDPlusOne hostname with
  | inl err => inl err
  | inr domain => inr domain
  end.

(** [getCertificate]: the certificate of a hostname's root domain. *)
Definition getCertificate (hostname : string) : error + Certificate :=
  match getRootDomain hostname with
  | inl err => inl err
  | inr rootHostname =>
      match FindCertificateForHost env rootHostname with
      | inl err => inl err
      | inr cert => inr cert
      end
  end.

(** [net.LookupHost]: one more lookup, answered by the resolver. *)
Definition net_LookupHost (host : string) : M (error + list string) :=
  fun w =>
    (Ok (LookupHost env (countLookups (trace w)) host),
     mkWorld (registry w) (trace w ++ [EvLookup host])).

Definition maxAttempts : nat := 5.

(** The three messages [handler.go] formats. *)
Definition retryMessage (attempts : nat) : string :=
  "Unable to connect, retrying... (" +:+ pretty attempts +:+ "/"
    +:+ pretty maxAttempts +:+ ")".

Definition unableToConnect (short : string) : error :=
  "Unable to connect to " +:+ short.

Definition containerFound (short : string) : string :=
  "Container found, connecting to " +:+ short +:+ "...".

(** The loop of [resolveHostname]. [remaining] is
    [maxAttempts - attempts]: the guard [attempts < maxAttempts] holds
    exactly when it is a successor. *)
Fixpoint resolveLoop (remaining attempts : nat)
    (container : types.ContainerJSON) : M string :=
  match remaining with
  | 0 =>
      do short <- sliceTo 12 (types.ID container);
      fail (unableToConnect short)
  | S remaining' =>
      let attempts := S attempts in
      do r <- net_LookupHost (types.Hostname (types.Config_ container));
      match r with
      | inl _ =>
          run emit (EvSleep 2);
          run emit (EvInfo (retryMessage attempts));
          resolveLoop remaining' attempts container
      | inr resolved => index0 resolved
      end
  end.

(** [resolveHostname]: the address of a container, from its hostname. *)
Definition resolveHostname (container : types.ContainerJSON) : M string :=
  resolveLoop maxAttempts 0 container.

(** ** The tunnel and its registry *)

(** Modelled from the spec: [NewTunnel] is declared outside
    [handler.go]; a tunnel is made of its config and certificate. *)
Definition NewTunnel (config : TunnelConfig) (cert : Certificate)
    : Tunnel :=
  mkTunnel config cert.

(** Modelled from the spec: the not-found error of section 4.1
    ("no tunnel for host"). *)
Definition tunnelNotFound (hostname : string) : error :=
  "no tunnel for host " +:+ hostname.

(** Modelled from the spec: [GetTunnelForHost] is declared outside
    [handler.go]; section 4.5: [Get] fails with a not-found error when
    the registry has no entry for the hostname. *)
Definition GetTunnelForHost (hostname : string) : M Tunnel :=
  fun w =>
    match registry w !! hostname with
    | None => (Err (tunnelNotFound hostname), w)
    | Some tunnel => (Ok tunnel, w)
    end.

(** Modelled from the spec: [Tunnel.Start] is declared outside
    [handler.go]; sections 4.1 (step 8), 4.5 and 6: the transport
    starts the tunnel, a failure is returned as an error, and a started
    tunnel is put into the registry under its hostname, replacing any
    entry there. *)
Definition Start (t : Tunnel) : M (option error) :=
  fun w =>
    let w' := mkWorld (registry w) (trace w ++ [EvStart t]) in
    match transportStart env t with
    | Some err => (Ok (Some err), w')
    | None =>
        (Ok None, mkWorld (<[Hostname (Config t) := t]> (registry w'))
                          (trace w'))
    end.

(** Modelled from the spec: [Tunnel.Stop] is declared outside
    [handler.go]; section 4.1 (steps 4 and 5): the transport stops the
    tunnel, a failure is returned as an error, and the registry entry
    of the tunnel's hostname is removed only after a successful stop. *)
Definition Stop (t : Tunnel) : M unit :=
  fun w =>
    let w' := mkWorld (registry w) (trace w ++ [EvStop t]) in
    match transportStop env t with
    | Some err => (Err err, w')
    | None =>
        (Ok tt, mkWorld (delete (Hostname (Config t)) (registry w'))
                        (trace w'))
    end.

(** ** The two sequences and the dispatcher *)

(** [handleStartEvent]: inspect the container of a start event and
    create a tunnel when it is labelled and has a certificate. *)
Definition handleStartEvent (event : events.Message) : M unit :=
  do container <- try (Inspect env (events.ID event));
  let hostname := getLabel heraHostname container in
  let port := getLabel heraPort container in
  let supplied_ip := getLabel heraIP container in
  let protocol := getLabel heraProtocol container in
  if decide (hostname = "" \/ port = "") then ret tt
  else
    do short <- sliceTo 12 (types.ID container);
    run emit (EvInfo (containerFound short));
    do ip <- resolveHostname container;
    let ip := if decide (supplied_ip <> "") then supplied_ip else ip in
    let protocol := if decide (protocol = "") then "http" else protocol in
    do cert <- try (getCertificate hostname);
    let config := {| IP := ip; Hostname := hostname; Port := port;
                     Protocol := protocol |} in
    let tunnel := NewTunnel config cert in
    run Start tunnel;
    ret tt.

(** [handleDieEvent]: inspect the container of a die event and stop its
    tunnel when there is one. *)
Definition handleDieEvent (event : events.Message) : M unit :=
  do container <- try (Inspect env (events.ID event));
  let hostname := getLabel "hera.hostname" container in
  if decide (hostname = "") then ret tt
  else
    do tunnel <- GetTunnelForHost hostname;
    run Stop tunnel;
    ret tt.

(** [err := ...; if err != nil { log.Error(err.Error()) }]: a returned
    error is logged and dropped; a panic is not recovered. *)
Definition logError (m : M unit) : M unit :=
  fun w =>
    match m w with
    | (Err e, w') => (Ok tt, mkWorld (registry w') (trace w' ++ [EvError e]))
    | other => other
    end.

(** [HandleEvent]: dispatch an event on its status. *)
Definition HandleEvent (event : events.Message) : M unit :=
  let status := events.Status event in
  if decide (status = "start") then logError (handleStartEvent event)
  else if decide (status = "die") then logError (handleDieEvent event)
  else ret tt.

(** [HandleContainer]: a container that already runs is handled as a
    start event, and the error is returned. *)
Definition HandleContainer (id : string) : M unit :=
  let event := {| events.Status := ""; events.ID := id |} in
  handleStartEvent event.

End Handler.

Arguments retryMessage : simpl never.
Arguments unableToConnect : simpl never.
Arguments containerFound : simpl never.
Arguments tunnelNotFound : simpl never.
Arguments emptyLabelError : simpl never.
Arguments cannotDeriveError : simpl never.

(** ** Vocabulary of the statements *)

Definition hostOf (c : types.ContainerJSON) : string :=
  types.Hostname (types.Config_ c).

(** The resolver fails at its [k]-th lookup of [host]. *)
Definition lookupFails (env : Env) (k : nat) (host : string) : Prop :=
  exists e, LookupHost env k host = inl e.

(** What one failed attempt leaves in the trace, and [k] of them in a
    row after [attempts] earlier ones. *)
Definition failedAttempt (host : string) (attempts : nat) : list Effect :=
  [EvLookup host; EvSleep 2; EvInfo (retryMessage attempts)].

Fixpoint failedAttempts (host : string) (attempts k : nat) : list Effect :=
  match k with
  | 0 => []
  | S k' => failedAttempt host (S attempts)
              ++ failedAttempts host (S attempts) k'
  end.

(** The world after the log line of line 85. *)
Definition announced (c : types.ContainerJSON) (w : World) : World :=
  mkWorld (registry w)
    (trace w ++ [EvInfo (containerFound
                           (String.substring 0 12 (types.ID c)))]).

(** The config lines 93 to 112 build from the labels and the resolved
    address. *)
Definition configOf (c : types.ContainerJSON) (resolved : string)
    : TunnelConfig :=
  {| IP := if decide (getLabel heraIP c <> "")
           then getLabel heraIP c else resolved;
     Hostname := getLabel heraHostname c;
     Port := getLabel heraPort c;
     Protocol := if decide (getLabel heraProtocol c = "")
                 then "http" else getLabel heraProtocol c |}.

(** The registry entries stored under a hostname. *)
Definition entriesFor (hostname : string) (m : gmap string Tunnel) : nat :=
  length (filter (fun kv => kv.1 = hostname) (map_to_list m)).

(** Every entry of the registry is stored under the hostname of its own
    config: what [Start] establishes and [Stop] relies on. *)
Definition keyedByHostname (m : gmap string Tunnel) : Prop :=
  forall h t, m !! h = Some t -> Hostname (Config t) = h.

(** A label is absent, or present with the empty value. *)
Definition unlabelled (name : string) (c : types.ContainerJSON) : Prop :=
  forall v, types.Labels (types.Config_ c) !! name = Some v -> v = "".

(** ** The scenarios of section 8 *)

Definition labelsA : gmap string string :=
  <[heraHostname := "a.example.com"]> (<[heraPort := "8080"]> ∅).

Definition labelsB : gmap string string :=
  <[heraIP := "5.6.7.8"]> labelsA.

Definition containerOf (id : string) (ls : gmap string string)
    : types.ContainerJSON :=
  {| types.ID := id;
     types.Config_ := {| types.Hostname := "web"; types.Labels := ls |} |}.

Definition containerA : types.ContainerJSON :=
  containerOf "4f1c2a9be07d6a35c1d2" labelsA.

Definition containerB : types.ContainerJSON :=
  containerOf "8e03b7d41f6a2c9905aa" labelsB.

(** An inspected container whose ID has three bytes. *)
Definition containerShort : types.ContainerJSON :=
  containerOf "abc" labelsA.

Definition containerPlain : types.ContainerJSON :=
  containerOf "77aa10c3e5924bd08f61" (<[heraPort := "8080"]> ∅).

(** A container under a domain the store has no certificate for. *)
Definition containerC : types.ContainerJSON :=
  containerOf "c90d14e6b2a7f5308d4e"
    (<[heraHostname := "b.example.co.uk"]> (<[heraPort := "9000"]> ∅)).

Definition tunnelA : Tunnel :=
  {| Config := {| IP := "1.2.3.4"; Hostname := "a.example.com";
                  Port := "8080"; Protocol := "http" |};
     Cert := {| CertDomain := "example.com" |} |}.

(** A runtime with the five containers, a resolver that fails [fails]
    times before it answers, a suffix table with [com], [uk] and
    [co.uk], a store with one certificate, for [example.com], and a
    transport that answers [startErr] and [stopErr]. *)
Definition scenario (fails : nat) (startErr stopErr : option error) : Env :=
  {| Inspect := fun id =>
       if decide (id = "A") then inr containerA
       else if decide (id = "B") then inr containerB
       else if decide (id = "C") then inr containerC
       else if decide (id = "short") then inr containerShort
       else if decide (id = "plain") then inr containerPlain
       else inl "No such container";
     LookupHost := fun k _ =>
       if (k <? fails)%nat then inl "no such host"
       else inr ["1.2.3.4"; "10.0.0.7"];
     isPublicSuffix := fun s => bool_decide (s ∈ ["com"; "uk"; "co.uk"]);
     FindCertificateForHost := fun d =>
       if decide (d = "example.com") then inr {| CertDomain := d |}
       else inl "no certificate";
     transportStart := fun _ => startErr;
     transportStop := fun _ => stopErr |}.

Definition startOf (id : string) : events.Message :=
  {| events.Status := "start"; events.ID := id |}.

Definition dieOf (id : string) : events.Message :=
  {| events.Status := "die"; events.ID := id |}.

(** The world at process start: an empty registry, nothing done yet. *)
Definition idle : World := mkWorld ∅ [].

(** A variant of a runtime with another certificate store. *)
Definition withStore (env : Env)
    (store : string -> error + Certificate) : Env :=
  {| Inspect := Inspect env;
     LookupHost := LookupHost env;
     isPublicSuffix := isPublicSuffix env;
     FindCertificateForHost := store;
     transportStart := transportStart env;
     transportStop := transportStop env |}.

(** Handling a stream of events, one after the other. *)
Fixpoint handleEvents (env : Env) (evs : list events.Message) : M unit :=
  match evs with
  | [] => ret tt
  | ev :: evs' => run HandleEvent env ev; handleEvents env evs'
  end.

(** The world in which the tunnel of scenario A runs. *)
Definition serving : World :=
  mkWorld (<["a.example.com" := tunnelA]> ∅) [].

(** Counting the tunnels started and stopped in a stretch of trace. *)
Fixpoint countStarts (tr : list Effect) : nat :=
  match tr with
  | [] => 0
  | EvStart _ :: tr' => S (countStarts tr')
  | _ :: tr' => countStarts tr'
  end.

Fixpoint countStops (tr : list Effect) : nat :=
  match tr with
  | [] => 0
  | EvStop _ :: tr' => S (countStops tr')
  | _ :: tr' => countStops tr'
  end.

(** Every lookup in a stretch of trace asks for [host]. *)
Definition lookupsAsk (host : string) (tr : list Effect) : Prop :=
  forall h, In (EvLookup h) tr -> h = host.

(** ** Traces *)

Lemma countLookups_app tr tr' :
  countLookups (tr ++ tr') = countLookups tr + countLookups tr'.
Proof.
  induction tr as [|[] tr IH]; simpl; auto.
Qed.

Lemma sleptSeconds_app tr tr' :
  sleptSeconds (tr ++ tr') = sleptSeconds tr + sleptSeconds tr'.
Proof.
  induction tr as [|[] tr IH]; simpl; auto with lia.
Qed.

Lemma noTunnelEffect_app tr tr' :
  noTunnelEffect tr -> noTunnelEffect tr' -> noTunnelEffect (tr ++ tr').
Proof.
  unfold noTunnelEffect. rewrite forallb_app. intros -> ->. reflexivity.
Qed.

Lemma countLookups_failedAttempts host attempts k :
  countLookups (failedAttempts host attempts k) = k.
Proof.
  revert attempts. induction k as [|k IH]; intros attempts; simpl; auto.
Qed.

Lemma sleptSeconds_failedAttempts host attempts k :
  sleptSeconds (failedAttempts host attempts k) = 2 * k.
Proof.
  revert attempts. induction k as [|k IH]; intros attempts; simpl; auto.
  rewrite IH. lia.
Qed.

Lemma noTunnelEffect_failedAttempts host attempts k :
  noTunnelEffect (failedAttempts host attempts k).
Proof.
  revert attempts. induction k as [|k IH]; intros attempts.
  - reflexivity.
  - apply noTunnelEffect_app; [reflexivity | apply IH].
Qed.

(** ** The resolver *)

Section Resolver.

Context (env : Env).

Implicit Types (c : types.ContainerJSON) (w : World).

(** Leaving the loop: the error of line 169, which slices the ID. *)
Lemma resolveLoop_exhausted attempts c w :
  resolveLoop env 0 attempts c w =
    if (String.length (types.ID c) <? 12)%nat
    then (Panic "runtime error: slice bounds out of range", w)
    else (Err (unableToConnect (String.substring 0 12 (types.ID c))), w).
Proof.
  simpl. unfold bind, sliceTo.
  destruct (String.length (types.ID c) <? 12)%nat; reflexivity.
Qed.

(** One failed attempt: sleep, log, and go round again. *)
Lemma resolveLoop_failed remaining attempts c w :
  lookupFails env (countLookups (trace w)) (hostOf c) ->
  resolveLoop env (S remaining) attempts c w =
    resolveLoop env remaining (S attempts) c
      (mkWorld (registry w)
               (trace w ++ failedAttempt (hostOf c) (S attempts))).
Proof.
  intros [e He]. simpl. unfold bind, net_LookupHost, emit. simpl.
  fold (hostOf c). rewrite He. simpl.
  rewrite <- !app_assoc. reflexivity.
Qed.

(** A successful attempt returns the first address. *)
Lemma resolveLoop_resolved remaining attempts c w a rest :
  LookupHost env (countLookups (trace w)) (hostOf c) = inr (a :: rest) ->
  resolveLoop env (S remaining) attempts c w =
    (Ok a, mkWorld (registry w) (trace w ++ [EvLookup (hostOf c)])).
Proof.
  intros Ha. simpl. unfold bind, net_LookupHost. simpl.
  fold (hostOf c). rewrite Ha. reflexivity.
Qed.

(** [k] failed attempts in a row. *)
Lemma resolveLoop_failures k : forall remaining attempts c w,
  (forall i, i < k -> lookupFails env (countLookups (trace w) + i) (hostOf c)) ->
  resolveLoop env (k + remaining) attempts c w =
    resolveLoop env remaining (k + attempts) c
      (mkWorld (registry w)
               (trace w ++ failedAttempts (hostOf c) attempts k)).
Proof.
  induction k as [|k IH]; intros remaining attempts c w Hfail.
  - simpl. rewrite app_nil_r. destruct w; reflexivity.
  - change (S k + remaining) with (S (k + remaining)).
    rewrite resolveLoop_failed.
    2:{ specialize (Hfail 0). rewrite Nat.add_0_r in Hfail.
        apply Hfail. lia. }
    rewrite IH.
    + simpl. rewrite <- !app_assoc. simpl.
      replace (k + S attempts) with (S (k + attempts)) by lia.
      reflexivity.
    + intros i Hi. simpl. rewrite countLookups_app. simpl.
      replace (countLookups (trace w) + 1 + i)
        with (countLookups (trace w) + S i) by lia.
      apply Hfail. lia.
Qed.

(** Whatever the resolver answers, the loop makes at most [remaining]
    lookups, sleeps two seconds after a failed one, touches no tunnel
    and leaves the registry alone. *)
Lemma resolveLoop_effects remaining : forall attempts c w,
  exists evs,
    (resolveLoop env remaining attempts c w).2 =
      mkWorld (registry w) (trace w ++ evs) /\
    countLookups evs <= remaining /\
    sleptSeconds evs <= 2 * countLookups evs /\
    noTunnelEffect evs.
Proof.
  induction remaining as [|remaining IH]; intros attempts c w.
  - exists []. rewrite resolveLoop_exhausted, app_nil_r.
    destruct (String.length (types.ID c) <? 12)%nat; destruct w;
      simpl; repeat split; lia.
  - destruct (LookupHost env (countLookups (trace w)) (hostOf c))
      as [e|resolved] eqn:Hl.
    + rewrite resolveLoop_failed by (exists e; exact Hl).
      destruct (IH (S attempts) c
                  (mkWorld (registry w)
                     (trace w ++ failedAttempt (hostOf c) (S attempts))))
        as (evs & Hw & Hn & Hs & Ht).
      exists (failedAttempt (hostOf c) (S attempts) ++ evs).
      rewrite Hw. simpl. rewrite <- app_assoc.
      repeat split; simpl; auto; lia.
    + exists [EvLookup (hostOf c)].
      simpl. unfold bind, net_LookupHost. simpl. fold (hostOf c).
      rewrite Hl. destruct resolved; simpl; repeat split; lia.
Qed.


(** Five failed attempts: the loop is left by its guard. *)
Lemma resolveHostname_gives_up c w :
  (forall i, i < 5 ->
     lookupFails env (countLookups (trace w) + i) (hostOf c)) ->
  resolveHostname env c w =
    resolveLoop env 0 5 c
      (mkWorld (registry w) (trace w ++ failedAttempts (hostOf c) 0 5)) /\
  aborted (resolveHostname env c w).1.
Proof.
  intros Hfail.
  assert (resolveHostname env c w =
            resolveLoop env 0 5 c
              (mkWorld (registry w)
                 (trace w ++ failedAttempts (hostOf c) 0 5))) as Hrun.
  { unfold resolveHostname, maxAttempts.
    change 5 with (5 + 0) at 1.
    rewrite resolveLoop_failures by exact Hfail. reflexivity. }
  split; [exact Hrun|].
  rewrite Hrun, resolveLoop_exhausted.
  destruct (String.length (types.ID c) <? 12)%nat; exact I.
Qed.

End Resolver.

(** ** Hostname resolution (section 4.3) *)

(** C4. Hostname resolution makes at most five lookups and sleeps two
    seconds after each failed one. When the resolver fails [N] times and
    then answers, resolution succeeds exactly when [N < 5], after [N + 1]
    lookups and [N] sleeps, with the first address of the answer. When
    the first five lookups fail it gives up after exactly five lookups
    (and five sleeps), and returns the error that names the first twelve
    bytes of the container's ID. *)
Theorem resolveHostname_bounded_retry (env : Env)
    (c : types.ContainerJSON) (w : World) :
  let host := hostOf c in
  let base := countLookups (trace w) in
  (exists evs,
      (resolveHostname env c w).2 = mkWorld (registry w) (trace w ++ evs) /\
      countLookups evs <= 5 /\
      sleptSeconds evs <= 2 * countLookups evs) /\
  (forall N a rest,
      (forall i, i < N -> lookupFails env (base + i) host) ->
      LookupHost env (base + N) host = inr (a :: rest) ->
      N < 5 ->
      let evs := failedAttempts host 0 N ++ [EvLookup host] in
      resolveHostname env c w =
        (Ok a, mkWorld (registry w) (trace w ++ evs)) /\
      countLookups evs = N + 1 /\
      sleptSeconds evs = 2 * N) /\
  ((forall i, i < 5 -> lookupFails env (base + i) host) ->
      let evs := failedAttempts host 0 5 in
      exists o,
        resolveHostname env c w =
          (o, mkWorld (registry w) (trace w ++ evs)) /\
        aborted o /\
        countLookups evs = 5 /\
        sleptSeconds evs = 2 * 5 /\
        (12 <= String.length (types.ID c) ->
         o = Err (unableToConnect (String.substring 0 12 (types.ID c))))).
Proof.
  intros host base. split; [|split].
  - destruct (resolveLoop_effects env maxAttempts 0 c w)
      as (evs & Hw & Hn & Hs & _).
    exists evs. auto.
  - intros N a rest Hfail Hok HN evs. subst evs.
    split; [|split].
    + unfold resolveHostname, maxAttempts.
      replace 5 with (N + S (4 - N)) by lia.
      rewrite resolveLoop_failures by exact Hfail.
      erewrite resolveLoop_resolved.
      * simpl. rewrite <- app_assoc. reflexivity.
      * simpl. rewrite countLookups_app, countLookups_failedAttempts.
        exact Hok.
    + rewrite countLookups_app, countLookups_failedAttempts. reflexivity.
    + rewrite sleptSeconds_app, sleptSeconds_failedAttempts. simpl. lia.
  - intros Hfail evs. subst evs.
    destruct (resolveHostname_gives_up env c w Hfail) as [-> _].
    rewrite resolveLoop_exhausted.
    rewrite countLookups_failedAttempts, sleptSeconds_failedAttempts.
    destruct (String.length (types.ID c) <? 12)%nat eqn:Hlen.
    + eexists. split; [reflexivity|]. repeat split.
      apply Nat.ltb_lt in Hlen. lia.
    + eexists. split; [reflexivity|]. repeat split.
Qed.

(** ** The start sequence (section 4.1) *)

Section StartSequence.

Context (env : Env).

Implicit Types (c : types.ContainerJSON) (w : World)
  (ev : events.Message).

Lemma handleStartEvent_inspect_error ev w e :
  Inspect env (events.ID ev) = inl e ->
  handleStartEvent env ev w = (Err e, w).
Proof.
  intros Hi. unfold handleStartEvent, bind. rewrite Hi. reflexivity.
Qed.

Lemma handleStartEvent_opted_out ev c w :
  Inspect env (events.ID ev) = inr c ->
  getLabel heraHostname c = "" \/ getLabel heraPort c = "" ->
  handleStartEvent env ev w = (Ok tt, w).
Proof.
  intros Hi Hout. unfold handleStartEvent, bind. rewrite Hi. simpl.
  destruct (decide _) as [_|Hn]; [reflexivity | contradiction].
Qed.

Lemma handleStartEvent_short_id ev c w :
  Inspect env (events.ID ev) = inr c ->
  getLabel heraHostname c <> "" ->
  getLabel heraPort c <> "" ->
  String.length (types.ID c) < 12 ->
  handleStartEvent env ev w =
    (Panic "runtime error: slice bounds out of range", w).
Proof.
  intros Hi Hh Hp Hlen. unfold handleStartEvent, bind. rewrite Hi. simpl.
  destruct (decide _) as [[?|?]|_]; [contradiction..|].
  unfold sliceTo.
  apply Nat.ltb_lt in Hlen. rewrite Hlen. reflexivity.
Qed.

(** An opted-in container with a full-length ID: resolve, find the
    certificate, start the tunnel and drop what [Start] returns. *)
Lemma handleStartEvent_opted_in ev c w :
  Inspect env (events.ID ev) = inr c ->
  getLabel heraHostname c <> "" ->
  getLabel heraPort c <> "" ->
  12 <= String.length (types.ID c) ->
  handleStartEvent env ev w =
    match resolveHostname env c (announced c w) with
    | (Ok a, w2) =>
        match getCertificate env (getLabel heraHostname c) with
        | inl e => (Err e, w2)
        | inr cert =>
            (Ok tt, (Start env (NewTunnel (configOf c a) cert) w2).2)
        end
    | (Err e, w2) => (Err e, w2)
    | (Panic why, w2) => (Panic why, w2)
    end.
Proof.
  intros Hi Hh Hp Hlen. unfold handleStartEvent, bind. rewrite Hi. simpl.
  destruct (decide _) as [[?|?]|_]; [contradiction..|].
  unfold sliceTo.
  apply Nat.ltb_ge in Hlen. rewrite Hlen. simpl.
  fold (announced c w).
  destruct (resolveHostname env c (announced c w)) as [[a|e|why] w2];
    try reflexivity.
  destruct (getCertificate env (getLabel heraHostname c)) as [e|cert];
    simpl; [reflexivity|].
  fold (configOf c a).
  unfold Start. destruct (transportStart env _); reflexivity.
Qed.

(** What [Start] does to the world. *)
Lemma Start_world t w :
  (Start env t w).2 =
    mkWorld (match transportStart env t with
             | Some _ => registry w
             | None => <[Hostname (Config t) := t]> (registry w)
             end)
            (trace w ++ [EvStart t]).
Proof.
  unfold Start. destruct (transportStart env t); reflexivity.
Qed.

End StartSequence.

Lemma getLabel_empty name c :
  getLabel name c = "" <-> unlabelled name c.
Proof.
  unfold getLabel, unlabelled.
  destruct (types.Labels (types.Config_ c) !! name) as [v|]; split.
  - intros -> v' [= <-]. reflexivity.
  - intros H. apply H. reflexivity.
  - intros _ v' [=].
  - reflexivity.
Qed.

(** C5. A container whose hostname label or port label is absent or
    empty is not opted in: the start sequence returns no error, starts no
    tunnel and leaves the registry, and the whole world, as it was. *)
Theorem start_skips_unlabelled (env : Env) (ev : events.Message)
    (c : types.ContainerJSON) (w : World) :
  Inspect env (events.ID ev) = inr c ->
  unlabelled heraHostname c \/ unlabelled heraPort c ->
  handleStartEvent env ev w = (Ok tt, w) /\
  registry (handleStartEvent env ev w).2 = registry w /\
  trace (handleStartEvent env ev w).2 = trace w.
Proof.
  intros Hi Hout.
  assert (handleStartEvent env ev w = (Ok tt, w)) as ->.
  { apply handleStartEvent_opted_out with c; [exact Hi|].
    rewrite !getLabel_empty. exact Hout. }
  auto.
Qed.

Lemma start_skips_unlabelled_witness :
  handleStartEvent (scenario 0 None None) (startOf "plain") idle
    = (Ok tt, idle).
Proof.
  apply (start_skips_unlabelled (scenario 0 None None) (startOf "plain")
           containerPlain idle).
  - reflexivity.
  - left. intros v Hv. vm_compute in Hv. discriminate.
Defined.

(** C10. For an opted-in container whose ID has fewer than twelve bytes
    the start sequence panics at the slice [container.ID[:12]] of its log
    line, before anything else is done; and [resolveHostname], run on
    such a container with a resolver that fails five times, panics at the
    same slice in its error message instead of returning the error. *)
Theorem short_id_panics (env : Env) (ev : events.Message)
    (c : types.ContainerJSON) (w : World) :
  Inspect env (events.ID ev) = inr c ->
  getLabel heraHostname c <> "" ->
  getLabel heraPort c <> "" ->
  String.length (types.ID c) < 12 ->
  handleStartEvent env ev w =
    (Panic "runtime error: slice bounds out of range", w) /\
  ((forall i, i < 5 ->
      lookupFails env (countLookups (trace w) + i) (hostOf c)) ->
   (resolveHostname env c w).1 =
     Panic "runtime error: slice bounds out of range").
Proof.
  intros Hi Hh Hp Hlen. split.
  - apply handleStartEvent_short_id with c; assumption.
  - intros Hfail.
    destruct (resolveHostname_gives_up env c w Hfail) as [-> _].
    rewrite resolveLoop_exhausted.
    apply Nat.ltb_lt in Hlen. rewrite Hlen. reflexivity.
Qed.

Lemma short_id_panics_witness :
  handleStartEvent (scenario 9 None None) (startOf "short") idle =
    (Panic "runtime error: slice bounds out of range", idle) /\
  (resolveHostname (scenario 9 None None) containerShort idle).1 =
    Panic "runtime error: slice bounds out of range".
Proof.
  destruct (short_id_panics (scenario 9 None None) (startOf "short")
              containerShort idle) as [Hstart Hresolve].
  - reflexivity.
  - vm_compute. discriminate.
  - vm_compute. discriminate.
  - vm_compute. lia.
  - split; [exact Hstart|]. apply Hresolve.
    intros i Hi. exists "no such host". simpl.
    destruct (i <? 9)%nat eqn:E; [reflexivity|].
    apply Nat.ltb_ge in E. lia.
Defined.

(** ** The registry *)

Lemma entriesFor_lookup h t (m : gmap string Tunnel) :
  m !! h = Some t -> entriesFor h m = 1.
Proof.
  intros Hm. unfold entriesFor.
  rewrite <- (insert_delete_id m h t Hm).
  rewrite map_to_list_insert by apply lookup_delete_eq.
  rewrite filter_cons_True by reflexivity. simpl. f_equal.
  apply length_zero_iff_nil.
  destruct (filter _ _) as [|[k v] l] eqn:Hf; [reflexivity|].
  assert ((k, v) ∈ filter (fun kv : string * Tunnel => kv.1 = h)
                     (map_to_list (delete h m))) as Hin.
  { rewrite Hf. left. }
  apply list_elem_of_filter in Hin as [Hk Hin]. simpl in Hk. subst k.
  apply elem_of_map_to_list in Hin.
  rewrite lookup_delete_eq in Hin. discriminate.
Qed.

Lemma entriesFor_absent h (m : gmap string Tunnel) :
  m !! h = None -> entriesFor h m = 0.
Proof.
  intros Hm. unfold entriesFor.
  apply length_zero_iff_nil.
  destruct (filter _ _) as [|[k v] l] eqn:Hf; [reflexivity|].
  assert ((k, v) ∈ filter (fun kv : string * Tunnel => kv.1 = h)
                     (map_to_list m)) as Hin.
  { rewrite Hf. left. }
  apply list_elem_of_filter in Hin as [Hk Hin]. simpl in Hk. subst k.
  apply elem_of_map_to_list in Hin. congruence.
Qed.

Lemma keyedByHostname_empty : keyedByHostname ∅.
Proof.
  intros h t Hm. rewrite lookup_empty in Hm. discriminate.
Qed.

Lemma keyedByHostname_insert t (m : gmap string Tunnel) :
  keyedByHostname m -> keyedByHostname (<[Hostname (Config t) := t]> m).
Proof.
  intros Hk h t' Hm.
  destruct (decide (Hostname (Config t) = h)) as [<-|Hne].
  - rewrite lookup_insert_eq in Hm. congruence.
  - rewrite lookup_insert_ne in Hm by exact Hne. apply Hk, Hm.
Qed.

Lemma keyedByHostname_delete h (m : gmap string Tunnel) :
  keyedByHostname m -> keyedByHostname (delete h m).
Proof.
  intros Hk h' t Hm.
  destruct (decide (h = h')) as [<-|Hne].
  - rewrite lookup_delete_eq in Hm. discriminate.
  - rewrite lookup_delete_ne in Hm by exact Hne. apply Hk, Hm.
Qed.

(** ** Runs of the start sequence *)

Section StartRuns.

Context (env : Env).

Implicit Types (c : types.ContainerJSON) (w : World)
  (ev : events.Message).

(** A start sequence that returns no error for an opted-in container
    went through every step. *)
Lemma handleStartEvent_started ev c w w' :
  Inspect env (events.ID ev) = inr c ->
  getLabel heraHostname c <> "" ->
  getLabel heraPort c <> "" ->
  handleStartEvent env ev w = (Ok tt, w') ->
  exists a w2 cert,
    12 <= String.length (types.ID c) /\
    resolveHostname env c (announced c w) = (Ok a, w2) /\
    getCertificate env (getLabel heraHostname c) = inr cert /\
    w' = (Start env (NewTunnel (configOf c a) cert) w2).2.
Proof.
  intros Hi Hh Hp Hrun.
  destruct (le_lt_dec 12 (String.length (types.ID c))) as [Hlen|Hlen].
  - rewrite (handleStartEvent_opted_in env ev c w Hi Hh Hp Hlen) in Hrun.
    destruct (resolveHostname env c (announced c w)) as [[a|e|why] w2];
      try discriminate.
    destruct (getCertificate env (getLabel heraHostname c)) as [e|cert];
      try discriminate.
    injection Hrun as <-. exists a, w2, cert. auto.
  - rewrite (handleStartEvent_short_id env ev c w Hi Hh Hp Hlen) in Hrun.
    discriminate.
Qed.

Lemma resolveHostname_effects c w :
  exists evs,
    (resolveHostname env c w).2 = mkWorld (registry w) (trace w ++ evs) /\
    noTunnelEffect evs.
Proof.
  destruct (resolveLoop_effects env maxAttempts 0 c w)
    as (evs & Hw & _ & _ & Hno).
  exists evs. auto.
Qed.

(** A start sequence that aborts, by an error or by a panic, has left
    the registry alone and has touched no tunnel. *)
Lemma handleStartEvent_aborted ev w :
  aborted (handleStartEvent env ev w).1 ->
  exists evs,
    (handleStartEvent env ev w).2 = mkWorld (registry w) (trace w ++ evs) /\
    noTunnelEffect evs.
Proof.
  intros Hab.
  assert (exists evs, w = mkWorld (registry w) (trace w ++ evs) /\
                      noTunnelEffect evs) as Hsame.
  { exists []. rewrite app_nil_r. destruct w. split; reflexivity. }
  destruct (Inspect env (events.ID ev)) as [e|c] eqn:Hi.
  { rewrite (handleStartEvent_inspect_error env ev w e Hi). exact Hsame. }
  destruct (decide (getLabel heraHostname c = "")) as [Hh|Hh].
  { rewrite (handleStartEvent_opted_out env ev c w Hi) by auto.
    exact Hsame. }
  destruct (decide (getLabel heraPort c = "")) as [Hp|Hp].
  { rewrite (handleStartEvent_opted_out env ev c w Hi) by auto.
    exact Hsame. }
  destruct (le_lt_dec 12 (String.length (types.ID c))) as [Hlen|Hlen].
  2:{ rewrite (handleStartEvent_short_id env ev c w Hi Hh Hp Hlen).
      exact Hsame. }
  rewrite (handleStartEvent_opted_in env ev c w Hi Hh Hp Hlen) in Hab |- *.
  destruct (resolveHostname_effects c (announced c w)) as (evs & Hw & Hno).
  assert (exists evs', mkWorld (registry w) (trace (announced c w) ++ evs)
                       = mkWorld (registry w) (trace w ++ evs') /\
                       noTunnelEffect evs') as Hgoal.
  { eexists. simpl. rewrite <- app_assoc. split; [reflexivity|].
    apply noTunnelEffect_app; [reflexivity | exact Hno]. }
  destruct (resolveHostname env c (announced c w)) as [[a|e|why] w2];
    simpl in Hw; subst w2; try exact Hgoal.
  destruct (getCertificate env (getLabel heraHostname c)) as [e|cert];
    [exact Hgoal | destruct Hab].
Qed.

End StartRuns.

(** When the start sequence of an opted-in container completes without
    an error it has constructed and started one tunnel, for the
    container's hostname; if that tunnel did start, it is in the registry
    under that hostname, it is the only entry there, and the entries of
    other hostnames are as before. *)
Theorem start_registers_tunnel (env : Env) (ev : events.Message)
    (c : types.ContainerJSON) (w w' : World) :
  Inspect env (events.ID ev) = inr c ->
  getLabel heraHostname c <> "" ->
  getLabel heraPort c <> "" ->
  handleStartEvent env ev w = (Ok tt, w') ->
  exists t,
    last (trace w') = Some (EvStart t) /\
    Hostname (Config t) = getLabel heraHostname c /\
    (transportStart env t = None ->
     registry w' !! getLabel heraHostname c = Some t /\
     entriesFor (getLabel heraHostname c) (registry w') = 1 /\
     forall h, h <> getLabel heraHostname c ->
               registry w' !! h = registry w !! h).
Proof.
  intros Hi Hh Hp Hrun.
  destruct (handleStartEvent_started env ev c w w' Hi Hh Hp Hrun)
    as (a & w2 & cert & _ & Hres & _ & ->).
  destruct (resolveHostname_effects env c (announced c w))
    as (evs & Hw2 & _).
  rewrite Hres in Hw2. simpl in Hw2. subst w2.
  exists (NewTunnel (configOf c a) cert).
  rewrite Start_world. simpl. split; [|split].
  - apply last_snoc.
  - reflexivity.
  - intros ->.
    assert (<[getLabel heraHostname c := NewTunnel (configOf c a) cert]>
              (registry w) !! getLabel heraHostname c
            = Some (NewTunnel (configOf c a) cert)) as Hin
      by apply lookup_insert_eq.
    split; [exact Hin | split].
    + apply entriesFor_lookup with (t := NewTunnel (configOf c a) cert).
      exact Hin.
    + intros h Hne. apply lookup_insert_ne. congruence.
Qed.

Lemma start_registers_tunnel_witness :
  exists w',
    handleStartEvent (scenario 1 None None) (startOf "A") idle = (Ok tt, w') /\
    last (trace w') = Some (EvStart tunnelA) /\
    registry w' !! "a.example.com" = Some tunnelA /\
    entriesFor "a.example.com" (registry w') = 1.
Proof.
  eexists. split; [vm_compute; reflexivity|].
  edestruct (start_registers_tunnel (scenario 1 None None) (startOf "A")
               containerA idle) as (t & Hlast & _ & Hreg).
  - reflexivity.
  - vm_compute. discriminate.
  - vm_compute. discriminate.
  - vm_compute. reflexivity.
  - assert (t = tunnelA) as ->
      by (vm_compute in Hlast; injection Hlast as Ht; rewrite <- Ht;
          reflexivity).
    destruct (Hreg eq_refl) as (Hin & Hone & _).
    split; [exact Hlast|]. split; [exact Hin | exact Hone].
Defined.

(** When the transport fails to start the tunnel, [handleStartEvent]
    still returns no error, since it drops what [Start] returns, and the
    registry stays as it was. *)
Lemma start_failure_is_silent (env : Env) (ev : events.Message)
    (c : types.ContainerJSON) (w w' : World) :
  Inspect env (events.ID ev) = inr c ->
  getLabel heraHostname c <> "" ->
  getLabel heraPort c <> "" ->
  handleStartEvent env ev w = (Ok tt, w') ->
  (forall t, is_Some (transportStart env t)) ->
  registry w' = registry w.
Proof.
  intros Hi Hh Hp Hrun Hfail.
  destruct (handleStartEvent_started env ev c w w' Hi Hh Hp Hrun)
    as (a & w2 & cert & _ & Hres & _ & ->).
  destruct (resolveHostname_effects env c (announced c w))
    as (evs & Hw2 & _).
  rewrite Hres in Hw2. simpl in Hw2. subst w2.
  rewrite Start_world. simpl.
  destruct (Hfail (NewTunnel (configOf c a) cert)) as [e ->].
  reflexivity.
Qed.

(** C1. A start sequence that completes without an error is to leave the
    tunnel in the registry under the container's hostname. With labels,
    resolution and certificate all in order but a transport that fails to
    start the tunnel, [handleStartEvent] still returns no error, since it
    drops what [Start] returns at line 115 where [handleDieEvent] checks
    what [Stop] returns, and the registry has no entry for the hostname;
    [HandleEvent] logs nothing. *)
Theorem start_failure_leaves_no_entry :
  Inspect (scenario 0 (Some "bind failed") None) "A" = inr containerA /\
  getLabel heraHostname containerA = "a.example.com" /\
  getLabel heraPort containerA = "8080" /\
  (resolveHostname (scenario 0 (Some "bind failed") None) containerA
     (announced containerA idle)).1 = Ok "1.2.3.4" /\
  getCertificate (scenario 0 (Some "bind failed") None) "a.example.com"
    = inr {| CertDomain := "example.com" |} /\
  (handleStartEvent (scenario 0 (Some "bind failed") None)
     (startOf "A") idle).1 = Ok tt /\
  registry (handleStartEvent (scenario 0 (Some "bind failed") None)
              (startOf "A") idle).2 !! "a.example.com" = None /\
  entriesFor "a.example.com"
    (registry (handleStartEvent (scenario 0 (Some "bind failed") None)
                 (startOf "A") idle).2) = 0 /\
  HandleEvent (scenario 0 (Some "bind failed") None) (startOf "A") idle =
    (Ok tt,
     mkWorld ∅
       [EvInfo "Container found, connecting to 4f1c2a9be07d...";
        EvLookup "web"; EvStart tunnelA]).
Proof.
  repeat split; vm_compute; reflexivity.
Qed.



(** C7. When certificate resolution fails for the hostname of an
    opted-in container, because its root domain cannot be derived or
    because the store has no certificate for it, the start sequence
    aborts: it does not return success, it constructs and starts no
    tunnel, and the registry is as it was. Whenever the sequence gets as
    far as the certificate, the error it returns is that of the failed
    certificate resolution. *)
Theorem no_tunnel_without_certificate (env : Env) (ev : events.Message)
    (c : types.ContainerJSON) (w : World) (e : error) :
  Inspect env (events.ID ev) = inr c ->
  getLabel heraHostname c <> "" ->
  getLabel heraPort c <> "" ->
  getRootDomain env (getLabel heraHostname c) = inl e \/
  (exists root, getRootDomain env (getLabel heraHostname c) = inr root /\
                FindCertificateForHost env root = inl e) ->
  exists evs,
    aborted (handleStartEvent env ev w).1 /\
    (handleStartEvent env ev w).2 = mkWorld (registry w) (trace w ++ evs) /\
    noTunnelEffect evs /\
    (forall a w2,
       12 <= String.length (types.ID c) ->
       resolveHostname env c (announced c w) = (Ok a, w2) ->
       handleStartEvent env ev w = (Err e, w2)).
Proof.
  intros Hi Hh Hp Hcert.
  assert (getCertificate env (getLabel heraHostname c) = inl e) as Hno.
  { unfold getCertificate.
    destruct Hcert as [-> | (root & -> & ->)]; reflexivity. }
  assert (aborted (handleStartEvent env ev w).1) as Hab.
  { destruct (handleStartEvent env ev w) as [[[]|e'|why] w'] eqn:Hrun;
      simpl; auto.
    destruct (handleStartEvent_started env ev c w w' Hi Hh Hp Hrun)
      as (a & w2 & cert & _ & _ & Hcert' & _).
    congruence. }
  destruct (handleStartEvent_aborted env ev w Hab) as (evs & Hw & Hquiet).
  exists evs. repeat split; auto.
  intros a w2 Hlen Hres.
  rewrite (handleStartEvent_opted_in env ev c w Hi Hh Hp Hlen).
  rewrite Hres, Hno. reflexivity.
Qed.

Lemma no_tunnel_without_certificate_witness :
  exists w',
    handleStartEvent (scenario 0 None None) (startOf "C") idle
      = (Err "no certificate", w') /\
    registry w' = registry idle /\
    noTunnelEffect (trace w').
Proof.
  destruct (no_tunnel_without_certificate (scenario 0 None None)
              (startOf "C") containerC idle "no certificate")
    as (evs & _ & Hw & Hquiet & Herr).
  - reflexivity.
  - vm_compute. discriminate.
  - vm_compute. discriminate.
  - right. exists "example.co.uk". split; reflexivity.
  - eexists. split; [|split].
    + eapply Herr; [vm_compute; lia | vm_compute; reflexivity].
    + reflexivity.
    + reflexivity.
Defined.

(** ** The stop sequence (section 4.1) *)

Section StopSequence.

Context (env : Env).

Implicit Types (c : types.ContainerJSON) (w : World)
  (ev : events.Message).

Lemma handleDieEvent_inspect_error ev w e :
  Inspect env (events.ID ev) = inl e ->
  handleDieEvent env ev w = (Err e, w).
Proof.
  intros Hi. unfold handleDieEvent, bind. rewrite Hi. reflexivity.
Qed.

Lemma handleDieEvent_opted_out ev c w :
  Inspect env (events.ID ev) = inr c ->
  getLabel heraHostname c = "" ->
  handleDieEvent env ev w = (Ok tt, w).
Proof.
  intros Hi Hh. unfold handleDieEvent, bind. rewrite Hi. simpl.
  fold heraHostname.
  destruct (decide _) as [_|Hn]; [reflexivity | contradiction].
Qed.

Lemma handleDieEvent_not_found ev c w :
  Inspect env (events.ID ev) = inr c ->
  getLabel heraHostname c <> "" ->
  registry w !! getLabel heraHostname c = None ->
  handleDieEvent env ev w =
    (Err (tunnelNotFound (getLabel heraHostname c)), w).
Proof.
  intros Hi Hh Hreg. unfold handleDieEvent, bind. rewrite Hi. simpl.
  fold heraHostname.
  destruct (decide _) as [?|_]; [contradiction|].
  unfold GetTunnelForHost. rewrite Hreg. reflexivity.
Qed.

Lemma handleDieEvent_found ev c w t :
  Inspect env (events.ID ev) = inr c ->
  getLabel heraHostname c <> "" ->
  registry w !! getLabel heraHostname c = Some t ->
  handleDieEvent env ev w =
    match transportStop env t with
    | Some e => (Err e, mkWorld (registry w) (trace w ++ [EvStop t]))
    | None => (Ok tt, mkWorld (delete (Hostname (Config t)) (registry w))
                              (trace w ++ [EvStop t]))
    end.
Proof.
  intros Hi Hh Hreg. unfold handleDieEvent, bind. rewrite Hi. simpl.
  fold heraHostname.
  destruct (decide _) as [?|_]; [contradiction|].
  unfold GetTunnelForHost. rewrite Hreg. unfold Stop. simpl.
  destruct (transportStop env t); reflexivity.
Qed.

End StopSequence.

(** C9. A die event for a container with a hostname label but no tunnel
    registered under that hostname: the stop sequence returns the
    not-found error and the registry, and the whole world, is as it
    was. *)
Theorem die_without_tunnel (env : Env) (ev : events.Message)
    (c : types.ContainerJSON) (w : World) :
  Inspect env (events.ID ev) = inr c ->
  getLabel heraHostname c <> "" ->
  registry w !! getLabel heraHostname c = None ->
  handleDieEvent env ev w =
    (Err (tunnelNotFound (getLabel heraHostname c)), w) /\
  registry (handleDieEvent env ev w).2 = registry w.
Proof.
  intros Hi Hh Hreg.
  rewrite (handleDieEvent_not_found env ev c w Hi Hh Hreg). auto.
Qed.

Lemma die_without_tunnel_witness :
  handleDieEvent (scenario 0 None None) (dieOf "A") idle =
    (Err "no tunnel for host a.example.com", idle).
Proof.
  apply (die_without_tunnel (scenario 0 None None) (dieOf "A")
           containerA idle).
  - reflexivity.
  - vm_compute. discriminate.
  - reflexivity.
Defined.

(** C2. A die event for a container with a hostname label and a tunnel
    registered under that hostname: the tunnel is stopped, once; when the
    stop succeeds the stop sequence returns no error and the entry of
    that hostname is gone from the registry; when the stop fails the
    sequence returns the stop's error and the registry is as it was. *)
Theorem die_removes_after_stop (env : Env) (ev : events.Message)
    (c : types.ContainerJSON) (w : World) (t : Tunnel) :
  Inspect env (events.ID ev) = inr c ->
  getLabel heraHostname c <> "" ->
  keyedByHostname (registry w) ->
  registry w !! getLabel heraHostname c = Some t ->
  (transportStop env t = None ->
   handleDieEvent env ev w =
     (Ok tt, mkWorld (delete (getLabel heraHostname c) (registry w))
                     (trace w ++ [EvStop t])) /\
   registry (handleDieEvent env ev w).2 !! getLabel heraHostname c = None /\
   entriesFor (getLabel heraHostname c)
     (registry (handleDieEvent env ev w).2) = 0) /\
  (forall e, transportStop env t = Some e ->
   handleDieEvent env ev w =
     (Err e, mkWorld (registry w) (trace w ++ [EvStop t]))).
Proof.
  intros Hi Hh Hkeyed Hreg.
  rewrite (handleDieEvent_found env ev c w t Hi Hh Hreg).
  rewrite (Hkeyed _ _ Hreg). split.
  - intros ->. simpl. split; [reflexivity|].
    split; [apply lookup_delete_eq|].
    apply entriesFor_absent, lookup_delete_eq.
  - intros e ->. reflexivity.
Qed.

Lemma keyedByHostname_serving : keyedByHostname (registry serving).
Proof.
  apply (keyedByHostname_insert tunnelA ∅ keyedByHostname_empty).
Qed.

Lemma die_removes_after_stop_witness :
  handleDieEvent (scenario 0 None None) (dieOf "A") serving =
    (Ok tt, mkWorld ∅ [EvStop tunnelA]) /\
  handleDieEvent (scenario 0 None (Some "stop failed")) (dieOf "A") serving =
    (Err "stop failed", mkWorld (registry serving) [EvStop tunnelA]).
Proof.
  split.
  - destruct (die_removes_after_stop (scenario 0 None None) (dieOf "A")
                containerA serving tunnelA) as [Hstop _];
      [reflexivity | vm_compute; discriminate
      | exact keyedByHostname_serving | reflexivity |].
    destruct (Hstop eq_refl) as [-> _]. reflexivity.
  - destruct (die_removes_after_stop (scenario 0 None (Some "stop failed"))
                (dieOf "A") containerA serving tunnelA) as [_ Hfail];
      [reflexivity | vm_compute; discriminate
      | exact keyedByHostname_serving | reflexivity |].
    rewrite (Hfail "stop failed" eq_refl). reflexivity.
Defined.

(** ** The registry stays keyed by hostname *)

Section Invariant.

Context (env : Env).

Implicit Types (w : World) (ev : events.Message).

Lemma handleStartEvent_keyed ev w :
  keyedByHostname (registry w) ->
  keyedByHostname (registry (handleStartEvent env ev w).2).
Proof.
  intros Hk.
  destruct (handleStartEvent env ev w) as [[[]|e|why] w'] eqn:Hrun.
  - destruct (Inspect env (events.ID ev)) as [e|c] eqn:Hi.
    { rewrite (handleStartEvent_inspect_error env ev w e Hi) in Hrun.
      discriminate. }
    destruct (decide (getLabel heraHostname c = "")) as [Hh|Hh].
    { rewrite (handleStartEvent_opted_out env ev c w Hi) in Hrun by auto.
      injection Hrun as <-. exact Hk. }
    destruct (decide (getLabel heraPort c = "")) as [Hp|Hp].
    { rewrite (handleStartEvent_opted_out env ev c w Hi) in Hrun by auto.
      injection Hrun as <-. exact Hk. }
    destruct (handleStartEvent_started env ev c w w' Hi Hh Hp Hrun)
      as (a & w2 & cert & _ & Hres & _ & ->).
    destruct (resolveHostname_effects env c (announced c w))
      as (evs & Hw2 & _).
    rewrite Hres in Hw2. simpl in Hw2. subst w2.
    rewrite Start_world. simpl.
    destruct (transportStart env _); [exact Hk|].
    apply (keyedByHostname_insert (NewTunnel (configOf c a) cert)), Hk.
  - destruct (handleStartEvent_aborted env ev w) as (evs & Hw & _).
    { rewrite Hrun. exact I. }
    rewrite Hrun in Hw. simpl in *. subst w'. exact Hk.
  - destruct (handleStartEvent_aborted env ev w) as (evs & Hw & _).
    { rewrite Hrun. exact I. }
    rewrite Hrun in Hw. simpl in *. subst w'. exact Hk.
Qed.

Lemma handleDieEvent_keyed ev w :
  keyedByHostname (registry w) ->
  keyedByHostname (registry (handleDieEvent env ev w).2).
Proof.
  intros Hk.
  destruct (Inspect env (events.ID ev)) as [e|c] eqn:Hi.
  { rewrite (handleDieEvent_inspect_error env ev w e Hi). exact Hk. }
  destruct (decide (getLabel heraHostname c = "")) as [Hh|Hh].
  { rewrite (handleDieEvent_opted_out env ev c w Hi Hh). exact Hk. }
  destruct (registry w !! getLabel heraHostname c) as [t|] eqn:Hreg.
  - rewrite (handleDieEvent_found env ev c w t Hi Hh Hreg).
    destruct (transportStop env t); simpl; [exact Hk|].
    apply keyedByHostname_delete, Hk.
  - rewrite (handleDieEvent_not_found env ev c w Hi Hh Hreg). exact Hk.
Qed.

Lemma logError_registry (m : M unit) w :
  registry (logError m w).2 = registry (m w).2.
Proof.
  unfold logError. destruct (m w) as [[[]|e|why] w']; reflexivity.
Qed.

Lemma HandleEvent_keyed ev w :
  keyedByHostname (registry w) ->
  keyedByHostname (registry (HandleEvent env ev w).2).
Proof.
  intros Hk. unfold HandleEvent.
  destruct (decide _); [|destruct (decide _)].
  - rewrite logError_registry. apply handleStartEvent_keyed, Hk.
  - rewrite logError_registry. apply handleDieEvent_keyed, Hk.
  - exact Hk.
Qed.

(** Whatever events the process has handled since it started, every
    entry of its registry sits under the hostname of its config. *)
Lemma handleEvents_keyed evs : forall w,
  keyedByHostname (registry w) ->
  keyedByHostname (registry (handleEvents env evs w).2).
Proof.
  induction evs as [|ev evs IH]; intros w Hk; simpl.
  - exact Hk.
  - unfold bind.
    pose proof (HandleEvent_keyed ev w Hk) as Hk'.
    destruct (HandleEvent env ev w) as [[[]|e|why] w']; simpl in *;
      auto.
Qed.

(** ** The dispatcher (section 4.1) *)

(** [HandleEvent] runs the start sequence on ["start"], the stop sequence
    on ["die"] and nothing otherwise, and logs the error of a sequence
    instead of returning it. *)
Lemma HandleEvent_dispatch ev w :
  (events.Status ev = "start" ->
   HandleEvent env ev w = logError (handleStartEvent env ev) w) /\
  (events.Status ev = "die" ->
   HandleEvent env ev w = logError (handleDieEvent env ev) w) /\
  (events.Status ev <> "start" -> events.Status ev <> "die" ->
   HandleEvent env ev w = (Ok tt, w)).
Proof.
  unfold HandleEvent. repeat split.
  - intros ->. reflexivity.
  - intros ->. reflexivity.
  - intros H1 H2. destruct (decide _); [contradiction|].
    destruct (decide _); [contradiction|]. reflexivity.
Qed.

Lemma logError_outcome (m : M unit) w :
  match (m w).1 with
  | Ok _ => logError m w = m w
  | Err e =>
      logError m w =
        (Ok tt, mkWorld (registry (m w).2) (trace (m w).2 ++ [EvError e]))
  | Panic why => logError m w = m w
  end.
Proof.
  unfold logError. destruct (m w) as [[[]|e|why] w']; reflexivity.
Qed.

(** [HandleEvent] never returns an error; it returns normally unless the
    sequence it runs panics. *)
Lemma HandleEvent_no_error ev w e :
  (HandleEvent env ev w).1 <> Err e.
Proof.
  unfold HandleEvent, logError.
  destruct (decide _); [|destruct (decide _)]; simpl.
  - destruct (handleStartEvent env ev w) as [[[]|e'|why] w']; discriminate.
  - destruct (handleDieEvent env ev w) as [[[]|e'|why] w']; discriminate.
  - discriminate.
Qed.

End Invariant.

(** C3. [HandleEvent] is to log the error of the sequence it runs and
    never to fail. It does so for every error a sequence returns (see
    [HandleEvent_dispatch] and [HandleEvent_no_error]), but a start event
    for an opted-in container whose ID has three bytes makes it panic at
    [container.ID[:12]]: nothing is logged and the panic reaches the
    caller. *)
Theorem HandleEvent_panics_on_short_id :
  Inspect (scenario 0 None None) "short" = inr containerShort /\
  getLabel heraHostname containerShort = "a.example.com" /\
  getLabel heraPort containerShort = "8080" /\
  types.ID containerShort = "abc" /\
  HandleEvent (scenario 0 None None) (startOf "short") idle =
    (Panic "runtime error: slice bounds out of range", idle).
Proof.
  repeat split.
Qed.

(** ** Certificate resolution (section 4.4) *)

Section RootDomain.

Context (isPS : string -> bool).








End RootDomain.





(** The resolver of scenario A with two failures before the answer, and
    the resolver that never answers. *)
Lemma resolveHostname_bounded_retry_witness :
  resolveHostname (scenario 2 None None) containerA idle =
    (Ok "1.2.3.4",
     mkWorld ∅ (failedAttempts "web" 0 2 ++ [EvLookup "web"])) /\
  resolveHostname (scenario 5 None None) containerA idle =
    (Err "Unable to connect to 4f1c2a9be07d",
     mkWorld ∅ (failedAttempts "web" 0 5)).
Proof.
  split.
  - destruct (resolveHostname_bounded_retry (scenario 2 None None)
                containerA idle) as (_ & Hthen & _).
    destruct (Hthen 2 "1.2.3.4" ["10.0.0.7"]) as (Hrun & _).
    + intros i Hi. exists "no such host". simpl.
      destruct (i <? 2)%nat eqn:E; [reflexivity|].
      apply Nat.ltb_ge in E. lia.
    + reflexivity.
    + lia.
    + exact Hrun.
  - destruct (resolveHostname_bounded_retry (scenario 5 None None)
                containerA idle) as (_ & _ & Hnever).
    destruct Hnever as (o & Hrun & _ & _ & _ & Herr).
    + intros i Hi. exists "no such host". simpl.
      destruct (i <? 5)%nat eqn:E; [reflexivity|].
      apply Nat.ltb_ge in E. lia.
    + rewrite Hrun, Herr by (vm_compute; lia). reflexivity.
Defined.

(** * Further properties of handler.go *)

(** ** More on traces *)

Lemma countStarts_app tr tr' :
  countStarts (tr ++ tr') = countStarts tr + countStarts tr'.
Proof.
  induction tr as [|[] tr IH]; simpl; auto.
Qed.

Lemma countStops_app tr tr' :
  countStops (tr ++ tr') = countStops tr + countStops tr'.
Proof.
  induction tr as [|[] tr IH]; simpl; auto.
Qed.

Lemma lookupsAsk_app host tr tr' :
  lookupsAsk host tr -> lookupsAsk host tr' -> lookupsAsk host (tr ++ tr').
Proof.
  intros H1 H2 h Hin. apply in_app_or in Hin as [Hin|Hin]; auto.
Qed.

Lemma lookupsAsk_failedAttempt host attempts :
  lookupsAsk host (failedAttempt host attempts).
Proof.
  intros h [Hin|[Hin|[Hin|[]]]]; congruence.
Qed.

Lemma noTunnelEffect_counts tr :
  noTunnelEffect tr -> countStarts tr = 0 /\ countStops tr = 0.
Proof.
  unfold noTunnelEffect.
  induction tr as [|[] tr IH]; simpl; intros H; auto; discriminate.
Qed.

(** ** More on the resolver *)

Section ResolverShape.

Context (env : Env).

Implicit Types (c : types.ContainerJSON) (w : World).

(** The loop can only succeed in one way: some attempts fail, then one
    answers, and that answer is not empty. *)
Lemma resolveLoop_Ok_shape remaining : forall attempts c w a w',
  resolveLoop env remaining attempts c w = (Ok a, w') ->
  exists k rest,
    k < remaining /\
    (forall i, i < k ->
       lookupFails env (countLookups (trace w) + i) (hostOf c)) /\
    LookupHost env (countLookups (trace w) + k) (hostOf c)
      = inr (a :: rest) /\
    w' = mkWorld (registry w)
           (trace w ++ failedAttempts (hostOf c) attempts k
                   ++ [EvLookup (hostOf c)]).
Proof.
  induction remaining as [|remaining IH]; intros attempts c w a w' Hrun.
  - rewrite resolveLoop_exhausted in Hrun.
    destruct (String.length (types.ID c) <? 12)%nat; discriminate.
  - destruct (LookupHost env (countLookups (trace w)) (hostOf c))
      as [e|resolved] eqn:Hl.
    + rewrite resolveLoop_failed in Hrun by (exists e; exact Hl).
      apply IH in Hrun as (k & rest & Hk & Hfail & Hok & ->).
      simpl in Hfail, Hok. rewrite countLookups_app in Hfail, Hok.
      simpl in Hfail, Hok.
      exists (S k), rest. split; [lia|]. split; [|split].
      * intros [|i] Hi.
        -- rewrite Nat.add_0_r. exists e. exact Hl.
        -- replace (countLookups (trace w) + S i)
             with (countLookups (trace w) + 1 + i) by lia.
           apply Hfail. lia.
      * replace (countLookups (trace w) + S k)
          with (countLookups (trace w) + 1 + k) by lia.
        exact Hok.
      * simpl. rewrite <- !app_assoc. reflexivity.
    + destruct resolved as [|a0 rest].
      * simpl in Hrun. unfold bind, net_LookupHost in Hrun. simpl in Hrun.
        fold (hostOf c) in Hrun. rewrite Hl in Hrun. discriminate.
      * rewrite (resolveLoop_resolved _ _ _ _ _ _ _ Hl) in Hrun.
        injection Hrun as <- <-.
        exists 0, rest. split; [lia|]. split; [|split].
        -- intros i Hi. lia.
        -- rewrite Nat.add_0_r. exact Hl.
        -- reflexivity.
Qed.

(** Whatever the resolver does: the stretch of trace the loop adds asks
    only for the container's configured hostname and sleeps at most two
    seconds per round. *)
Lemma resolveLoop_stretch remaining : forall attempts c w,
  exists evs,
    (resolveLoop env remaining attempts c w).2 =
      mkWorld (registry w) (trace w ++ evs) /\
    lookupsAsk (hostOf c) evs /\
    sleptSeconds evs <= 2 * remaining /\
    (0 < remaining -> 1 <= countLookups evs).
Proof.
  induction remaining as [|remaining IH]; intros attempts c w.
  - exists []. rewrite resolveLoop_exhausted, app_nil_r.
    destruct (String.length (types.ID c) <? 12)%nat; destruct w;
      simpl; repeat split; try lia; intros h [].
  - destruct (LookupHost env (countLookups (trace w)) (hostOf c))
      as [e|resolved] eqn:Hl.
    + rewrite resolveLoop_failed by (exists e; exact Hl).
      destruct (IH (S attempts) c
                  (mkWorld (registry w)
                     (trace w ++ failedAttempt (hostOf c) (S attempts))))
        as (evs & Hw & Hask & Hs & _).
      exists (failedAttempt (hostOf c) (S attempts) ++ evs).
      rewrite Hw. simpl. rewrite <- app_assoc.
      split; [reflexivity|]. split; [|split].
      * apply (lookupsAsk_app _ (failedAttempt _ _) evs);
          [apply lookupsAsk_failedAttempt | exact Hask].
      * simpl. lia.
      * simpl. lia.
    + exists [EvLookup (hostOf c)].
      simpl. unfold bind, net_LookupHost. simpl. fold (hostOf c).
      rewrite Hl.
      assert (lookupsAsk (hostOf c) [EvLookup (hostOf c)]) as Hask
        by (intros h [Hin|[]]; congruence).
      destruct resolved; simpl; repeat split; auto; lia.
Qed.

End ResolverShape.

(** X1. Hostname resolution can succeed in one way only: the first [k]
    lookups fail, with [k] below five, the next one answers with at least
    one address, the first of which is returned; the resolver has then
    slept [2 * k] seconds, eight at most, and made [k + 1] lookups. *)
Theorem resolution_success_shape (env : Env) (c : types.ContainerJSON)
    (w w' : World) (a : string) :
  resolveHostname env c w = (Ok a, w') ->
  exists k rest evs,
    k < 5 /\
    (forall i, i < k ->
       lookupFails env (countLookups (trace w) + i) (hostOf c)) /\
    LookupHost env (countLookups (trace w) + k) (hostOf c)
      = inr (a :: rest) /\
    w' = mkWorld (registry w) (trace w ++ evs) /\
    evs = failedAttempts (hostOf c) 0 k ++ [EvLookup (hostOf c)] /\
    countLookups evs = k + 1 /\
    sleptSeconds evs = 2 * k.
Proof.
  intros Hrun.
  apply resolveLoop_Ok_shape in Hrun as (k & rest & Hk & Hfail & Hok & ->).
  exists k, rest, (failedAttempts (hostOf c) 0 k ++ [EvLookup (hostOf c)]).
  repeat split; auto.
  - rewrite countLookups_app, countLookups_failedAttempts. reflexivity.
  - rewrite sleptSeconds_app, sleptSeconds_failedAttempts. simpl. lia.
Qed.

Lemma resolution_success_shape_witness :
  exists k rest,
    k < 5 /\
    LookupHost (scenario 3 None None) k "web" = inr ("1.2.3.4" :: rest) /\
    lookupFails (scenario 3 None None) 0 "web".
Proof.
  destruct (resolution_success_shape (scenario 3 None None) containerA
              idle (resolveHostname (scenario 3 None None) containerA idle).2
              "1.2.3.4")
    as (k & rest & evs & Hk & Hfail & Hok & _ & _ & Hn & _).
  - vm_compute. reflexivity.
  - exists k, rest. split; [exact Hk|]. split; [exact Hok|].
    exists "no such host". reflexivity.
Defined.

(** X3. Whatever the resolver does, [resolveHostname] makes between one
    and five lookups, all of them for the container's configured
    hostname, sleeps ten seconds at most, starts and stops no tunnel and
    leaves the registry as it was. *)
Theorem resolution_effects_bounded (env : Env) (c : types.ContainerJSON)
    (w : World) :
  exists evs,
    (resolveHostname env c w).2 = mkWorld (registry w) (trace w ++ evs) /\
    1 <= countLookups evs <= 5 /\
    lookupsAsk (types.Hostname (types.Config_ c)) evs /\
    sleptSeconds evs <= 10 /\
    countStarts evs = 0 /\ countStops evs = 0.
Proof.
  destruct (resolveLoop_effects env maxAttempts 0 c w)
    as (evs & Hw & Hn & _ & Hno).
  destruct (resolveLoop_stretch env maxAttempts 0 c w)
    as (evs' & Hw' & Hask & Hs & Hone).
  fold (resolveHostname env c) in Hw, Hw'.
  rewrite Hw in Hw'. injection Hw' as Heq.
  apply app_inv_head in Heq. subst evs'.
  exists evs. unfold maxAttempts in *.
  destruct (noTunnelEffect_counts evs Hno) as [Hstarts Hstops].
  repeat split; auto; lia.
Qed.

(** ** More on the two sequences *)

Section Sequences.

Context (env : Env).

Implicit Types (c : types.ContainerJSON) (w : World)
  (ev : events.Message).

(** The stop sequence returns or fails, it does not panic; what it adds
    to the trace is nothing or the stop of one tunnel. *)
Lemma handleDieEvent_stretch ev w :
  exists evs,
    (handleDieEvent env ev w).2 =
      mkWorld (registry (handleDieEvent env ev w).2) (trace w ++ evs) /\
    (evs = [] \/ exists t, evs = [EvStop t]) /\
    forall why, (handleDieEvent env ev w).1 <> Panic why.
Proof.
  assert (forall o : outcome unit, (forall why, o <> Panic why) ->
          exists evs,
            (o, w).2 = mkWorld (registry (o, w).2) (trace w ++ evs) /\
            (evs = [] \/ exists t, evs = [EvStop t]) /\
            forall why, (o, w).1 <> Panic why) as Hsame.
  { intros o Ho. exists []. simpl. rewrite app_nil_r. destruct w. auto. }
  destruct (Inspect env (events.ID ev)) as [e|c] eqn:Hi.
  { rewrite (handleDieEvent_inspect_error env ev w e Hi).
    apply Hsame. discriminate. }
  destruct (decide (getLabel heraHostname c = "")) as [Hh|Hh].
  { rewrite (handleDieEvent_opted_out env ev c w Hi Hh).
    apply Hsame. discriminate. }
  destruct (registry w !! getLabel heraHostname c) as [t|] eqn:Hreg.
  - rewrite (handleDieEvent_found env ev c w t Hi Hh Hreg).
    exists [EvStop t].
    destruct (transportStop env t); simpl; repeat split; eauto;
      discriminate.
  - rewrite (handleDieEvent_not_found env ev c w Hi Hh Hreg).
    apply Hsame. discriminate.
Qed.

End Sequences.

(** X4. However a start sequence ends, it has made at most five lookups,
    slept at most ten seconds, started at most one tunnel and stopped
    none: a tunnel already registered for the hostname is never stopped
    by a start event. *)
Theorem start_effects_bounded (env : Env) (ev : events.Message)
    (w : World) :
  exists evs,
    trace (handleStartEvent env ev w).2 = trace w ++ evs /\
    countLookups evs <= 5 /\
    sleptSeconds evs <= 10 /\
    countStarts evs <= 1 /\
    countStops evs = 0.
Proof.
  assert (exists evs, trace w = trace w ++ evs /\
            countLookups evs <= 5 /\ sleptSeconds evs <= 10 /\
            countStarts evs <= 1 /\ countStops evs = 0) as Hsame.
  { exists []. rewrite app_nil_r. simpl. repeat split; lia. }
  destruct (Inspect env (events.ID ev)) as [e|c] eqn:Hi.
  { rewrite (handleStartEvent_inspect_error env ev w e Hi). exact Hsame. }
  destruct (decide (getLabel heraHostname c = "")) as [Hh|Hh].
  { rewrite (handleStartEvent_opted_out env ev c w Hi) by auto.
    exact Hsame. }
  destruct (decide (getLabel heraPort c = "")) as [Hp|Hp].
  { rewrite (handleStartEvent_opted_out env ev c w Hi) by auto.
    exact Hsame. }
  destruct (le_lt_dec 12 (String.length (types.ID c))) as [Hlen|Hlen].
  2:{ rewrite (handleStartEvent_short_id env ev c w Hi Hh Hp Hlen).
      exact Hsame. }
  rewrite (handleStartEvent_opted_in env ev c w Hi Hh Hp Hlen).
  destruct (resolveLoop_effects env maxAttempts 0 c (announced c w))
    as (evs & Hw & Hn & _ & Hno).
  destruct (resolveLoop_stretch env maxAttempts 0 c (announced c w))
    as (evs' & Hw' & _ & Hs & _).
  fold (resolveHostname env c) in Hw, Hw'.
  rewrite Hw in Hw'. injection Hw' as Heq.
  apply app_inv_head in Heq. subst evs'.
  unfold maxAttempts in *.
  destruct (noTunnelEffect_counts evs Hno) as [Hstarts Hstops].
  set (said := EvInfo (containerFound
                         (String.substring 0 12 (types.ID c)))).
  assert (exists evs0, trace (announced c w) ++ evs = trace w ++ evs0 /\
            countLookups evs0 <= 5 /\ sleptSeconds evs0 <= 10 /\
            countStarts evs0 <= 1 /\ countStops evs0 = 0) as Hquiet.
  { exists (said :: evs). simpl. rewrite <- app_assoc. simpl.
    repeat split; auto; lia. }
  destruct (resolveHostname env c (announced c w)) as [[a|e|why] w2];
    simpl in Hw; subst w2; simpl; try exact Hquiet.
  destruct (getCertificate env (getLabel heraHostname c)) as [e|cert];
    simpl; [exact Hquiet|].
  rewrite Start_world. simpl.
  exists (said :: evs ++ [EvStart (NewTunnel (configOf c a) cert)]).
  rewrite <- !app_assoc. simpl.
  rewrite countLookups_app, sleptSeconds_app, countStarts_app,
    countStops_app. simpl.
  repeat split; auto; lia.
Qed.

(** X5. However a stop sequence ends, it has not panicked, it has made
    no lookup and has not slept, it has started no tunnel and has stopped
    at most one. *)
Theorem die_effects_bounded (env : Env) (ev : events.Message)
    (w : World) :
  (forall why, (handleDieEvent env ev w).1 <> Panic why) /\
  exists evs,
    trace (handleDieEvent env ev w).2 = trace w ++ evs /\
    countLookups evs = 0 /\
    sleptSeconds evs = 0 /\
    countStarts evs = 0 /\
    countStops evs <= 1.
Proof.
  destruct (handleDieEvent_stretch env ev w) as (evs & Hw & Hevs & Hnp).
  split; [exact Hnp|].
  exists evs. rewrite Hw. simpl.
  destruct Hevs as [-> | [t ->]]; simpl; repeat split; lia.
Qed.

(** X6. The resolution error comes first: for an opted-in container
    with an ID of twelve bytes or more whose hostname fails to resolve
    five times, the start sequence returns the error naming the first
    twelve bytes of the ID, after five lookups, and the certificate
    store has no say in it. *)
Theorem resolution_error_comes_first (env : Env) (ev : events.Message)
    (c : types.ContainerJSON) (w : World)
    (store : string -> error + Certificate) :
  Inspect env (events.ID ev) = inr c ->
  getLabel heraHostname c <> "" ->
  getLabel heraPort c <> "" ->
  12 <= String.length (types.ID c) ->
  (forall i, i < 5 ->
     lookupFails env (countLookups (trace w) + i) (hostOf c)) ->
  handleStartEvent (withStore env store) ev w =
    (Err (unableToConnect (String.substring 0 12 (types.ID c))),
     mkWorld (registry w)
       (trace (announced c w) ++ failedAttempts (hostOf c) 0 5)).
Proof.
  intros Hi Hh Hp Hlen Hfail.
  rewrite (handleStartEvent_opted_in (withStore env store) ev c w Hi Hh Hp
             Hlen).
  destruct (resolveHostname_gives_up (withStore env store) c
              (announced c w)) as [-> _].
  { intros i Hlt. simpl. rewrite countLookups_app. simpl.
    rewrite Nat.add_0_r. apply Hfail, Hlt. }
  rewrite resolveLoop_exhausted.
  apply Nat.ltb_ge in Hlen. rewrite Hlen. reflexivity.
Qed.

Lemma resolution_error_comes_first_witness :
  (handleStartEvent
     (withStore (scenario 5 None None) (fun _ => inl "no certificate"))
     (startOf "A") idle).1 = Err "Unable to connect to 4f1c2a9be07d" /\
  (handleStartEvent
     (withStore (scenario 5 None None)
        (fun d => inr {| CertDomain := d |}))
     (startOf "A") idle).1 = Err "Unable to connect to 4f1c2a9be07d".
Proof.
  assert (forall i, i < 5 ->
            lookupFails (scenario 5 None None)
              (countLookups (trace idle) + i) (hostOf containerA)) as Hfail.
  { intros i Hi. exists "no such host". simpl.
    destruct (i <? 5)%nat eqn:E; [reflexivity|].
    apply Nat.ltb_ge in E. lia. }
  split.
  - rewrite (resolution_error_comes_first (scenario 5 None None)
               (startOf "A") containerA idle (fun _ => inl "no certificate"));
      [reflexivity | reflexivity | vm_compute; discriminate
      | vm_compute; discriminate | vm_compute; lia | exact Hfail].
  - rewrite (resolution_error_comes_first (scenario 5 None None)
               (startOf "A") containerA idle
               (fun d => inr {| CertDomain := d |}));
      [reflexivity | reflexivity | vm_compute; discriminate
      | vm_compute; discriminate | vm_compute; lia | exact Hfail].
Defined.

(** X7. A die event for a container without a hostname label, or with
    an empty one, does nothing and returns no error, whatever the
    registry holds; [HandleEvent] then leaves the world as it was. *)
Theorem die_skips_unlabelled (env : Env) (ev : events.Message)
    (c : types.ContainerJSON) (w : World) :
  Inspect env (events.ID ev) = inr c ->
  unlabelled heraHostname c ->
  handleDieEvent env ev w = (Ok tt, w) /\
  (events.Status ev = "die" -> HandleEvent env ev w = (Ok tt, w)).
Proof.
  intros Hi Hout. apply getLabel_empty in Hout.
  rewrite (handleDieEvent_opted_out env ev c w Hi Hout).
  split; [reflexivity|].
  intros Hst. unfold HandleEvent, logError. rewrite Hst. simpl.
  rewrite (handleDieEvent_opted_out env ev c w Hi Hout). reflexivity.
Qed.

Lemma die_skips_unlabelled_witness :
  handleDieEvent (scenario 0 None None) (dieOf "plain") serving
    = (Ok tt, serving).
Proof.
  destruct (die_skips_unlabelled (scenario 0 None None) (dieOf "plain")
              containerPlain serving) as [Hrun _].
  - reflexivity.
  - intros v Hv. vm_compute in Hv. discriminate.
  - exact Hrun.
Defined.

(** X8. When the container cannot be inspected, [HandleEvent] logs the
    inspection error once for a start event as for a die event, touches
    nothing else and returns normally, while [HandleContainer] hands the
    same error to its caller and logs nothing. *)
Theorem inspection_failure_reported (env : Env) (ev : events.Message)
    (w : World) (e : error) :
  Inspect env (events.ID ev) = inl e ->
  events.Status ev = "start" \/ events.Status ev = "die" ->
  HandleEvent env ev w =
    (Ok tt, mkWorld (registry w) (trace w ++ [EvError e])) /\
  HandleContainer env (events.ID ev) w = (Err e, w).
Proof.
  intros Hi Hst. split.
  - unfold HandleEvent, logError.
    destruct Hst as [-> | ->]; simpl.
    + rewrite (handleStartEvent_inspect_error env ev w e Hi). reflexivity.
    + rewrite (handleDieEvent_inspect_error env ev w e Hi). reflexivity.
  - unfold HandleContainer.
    apply handleStartEvent_inspect_error. exact Hi.
Qed.

Lemma inspection_failure_reported_witness :
  HandleEvent (scenario 0 None None) (dieOf "gone") serving =
    (Ok tt, mkWorld (registry serving) [EvError "No such container"]) /\
  HandleContainer (scenario 0 None None) "gone" serving =
    (Err "No such container", serving).
Proof.
  apply (inspection_failure_reported (scenario 0 None None) (dieOf "gone")
           serving "No such container").
  - reflexivity.
  - right. reflexivity.
Defined.

(** ** When the handler panics *)

(** The loop panics only at one of its two unguarded expressions: the
    slice of a short ID once the attempts are used up, or the first
    element of an empty answer. *)
Lemma resolveLoop_Panic_shape (env : Env) remaining :
  forall attempts (c : types.ContainerJSON) (w w' : World) why,
  resolveLoop env remaining attempts c w = (Panic why, w') ->
  String.length (types.ID c) < 12 \/
  exists k, k < remaining /\
            LookupHost env (countLookups (trace w) + k) (hostOf c) = inr [].
Proof.
  induction remaining as [|remaining IH]; intros attempts c w w' why Hrun.
  - rewrite resolveLoop_exhausted in Hrun.
    destruct (String.length (types.ID c) <? 12)%nat eqn:Hlen;
      [|discriminate].
    left. apply Nat.ltb_lt, Hlen.
  - destruct (LookupHost env (countLookups (trace w)) (hostOf c))
      as [e|resolved] eqn:Hl.
    + rewrite resolveLoop_failed in Hrun by (exists e; exact Hl).
      apply IH in Hrun as [Hshort | (k & Hk & Hempty)]; [left; exact Hshort|].
      right. exists (S k). split; [lia|].
      simpl in Hempty. rewrite countLookups_app in Hempty. simpl in Hempty.
      replace (countLookups (trace w) + S k)
        with (countLookups (trace w) + 1 + k) by lia.
      exact Hempty.
    + destruct resolved as [|a rest].
      * right. exists 0. split; [lia|]. rewrite Nat.add_0_r. exact Hl.
      * rewrite (resolveLoop_resolved _ _ _ _ _ _ _ Hl) in Hrun.
        discriminate.
Qed.

(** X9. [HandleEvent] never returns an error. It returns normally
    unless it panics, and it panics only on a start event for an opted-in
    container whose ID has fewer than twelve bytes or for which one of
    the first five lookups answers with no address. *)
Theorem HandleEvent_fails_only_by_panic (env : Env) (ev : events.Message)
    (w : World) :
  (HandleEvent env ev w).1 = Ok tt \/
  (exists why, (HandleEvent env ev w).1 = Panic why) /\
  events.Status ev = "start" /\
  exists c,
    Inspect env (events.ID ev) = inr c /\
    getLabel heraHostname c <> "" /\
    getLabel heraPort c <> "" /\
    (String.length (types.ID c) < 12 \/
     exists k, k < 5 /\
       LookupHost env (countLookups (trace w) + k) (hostOf c) = inr []).
Proof.
  unfold HandleEvent, logError.
  destruct (decide (events.Status ev = "start")) as [Hst|Hst].
  2:{ left. destruct (decide _) as [Hd|Hd]; [|reflexivity].
      destruct (handleDieEvent_stretch env ev w) as (_ & _ & _ & Hnp).
      destruct (handleDieEvent env ev w) as [[[]|e|why] w']; simpl in *;
        auto.
      destruct (Hnp why). reflexivity. }
  destruct (handleStartEvent env ev w) as [[[]|e|why] w'] eqn:Hrun;
    simpl; auto.
  right. split; [eauto|]. split; [exact Hst|].
  destruct (Inspect env (events.ID ev)) as [e0|c] eqn:Hi.
  { rewrite (handleStartEvent_inspect_error env ev w e0 Hi) in Hrun.
    discriminate. }
  exists c. split; [reflexivity|].
  destruct (decide (getLabel heraHostname c = "")) as [Hh|Hh].
  { rewrite (handleStartEvent_opted_out env ev c w Hi) in Hrun by auto.
    discriminate. }
  destruct (decide (getLabel heraPort c = "")) as [Hp|Hp].
  { rewrite (handleStartEvent_opted_out env ev c w Hi) in Hrun by auto.
    discriminate. }
  split; [exact Hh|]. split; [exact Hp|].
  destruct (le_lt_dec 12 (String.length (types.ID c))) as [Hlen|Hlen];
    [|left; exact Hlen].
  rewrite (handleStartEvent_opted_in env ev c w Hi Hh Hp Hlen) in Hrun.
  destruct (resolveHostname env c (announced c w)) as [[a|e1|why'] w2]
    eqn:Hres.
  - destruct (getCertificate env (getLabel heraHostname c));
      discriminate.
  - discriminate.
  - apply resolveLoop_Panic_shape in Hres as [Hshort|(k & Hk & Hempty)];
      [left; exact Hshort|].
    right. exists k. split; [exact Hk|].
    simpl in Hempty. rewrite countLookups_app in Hempty. simpl in Hempty.
    rewrite Nat.add_0_r in Hempty. exact Hempty.
Qed.

(** X10. [HandleContainer] is the start sequence of a start event for
    the same container with the error handed back: where [HandleEvent]
    logs an error and returns, [HandleContainer] returns that error; in
    both cases the registry ends up the same. *)
Theorem HandleContainer_like_start_event (env : Env) (ev : events.Message)
    (w : World) :
  events.Status ev = "start" ->
  (forall w', HandleContainer env (events.ID ev) w = (Ok tt, w') ->
     HandleEvent env ev w = (Ok tt, w')) /\
  (forall e w', HandleContainer env (events.ID ev) w = (Err e, w') ->
     HandleEvent env ev w =
       (Ok tt, mkWorld (registry w') (trace w' ++ [EvError e]))) /\
  registry (HandleEvent env ev w).2 =
    registry (HandleContainer env (events.ID ev) w).2.
Proof.
  intros Hst.
  assert (HandleContainer env (events.ID ev) w = handleStartEvent env ev w)
    as Hsame by reflexivity.
  assert (HandleEvent env ev w = logError (handleStartEvent env ev) w)
    as Hlog by (unfold HandleEvent; rewrite Hst; reflexivity).
  rewrite Hsame, Hlog. unfold logError.
  split; [|split].
  - intros w' ->. reflexivity.
  - intros e w' ->. reflexivity.
  - destruct (handleStartEvent env ev w) as [[[]|e|why] w']; reflexivity.
Qed.

Lemma HandleContainer_like_start_event_witness :
  HandleContainer (scenario 0 None None) "C" idle =
    (Err "no certificate",
     (HandleContainer (scenario 0 None None) "C" idle).2) /\
  (HandleEvent (scenario 0 None None) (startOf "C") idle).1 = Ok tt /\
  last (trace (HandleEvent (scenario 0 None None) (startOf "C") idle).2)
    = Some (EvError "no certificate").
Proof.
  destruct (HandleContainer_like_start_event (scenario 0 None None)
              (startOf "C") idle eq_refl) as (_ & Hlogged & _).
  split; [vm_compute; reflexivity|].
  rewrite (Hlogged "no certificate"
             (HandleContainer (scenario 0 None None) "C" idle).2)
    by (vm_compute; reflexivity).
  split; [reflexivity | apply last_snoc].
Defined.

(** ** Sequences of events *)

(** X12. A start event that registers a tunnel, followed by a die event
    for the same container whose stop succeeds, takes the hostname's
    entry out again: the registry is the one before the start event
    without that hostname, and the tunnel that was started is the one
    that is stopped. *)
Theorem start_then_die (env : Env) (ev ev' : events.Message)
    (c : types.ContainerJSON) (w w1 : World) :
  Inspect env (events.ID ev) = inr c ->
  events.ID ev' = events.ID ev ->
  getLabel heraHostname c <> "" ->
  getLabel heraPort c <> "" ->
  (forall t, transportStart env t = None) ->
  (forall t, transportStop env t = None) ->
  handleStartEvent env ev w = (Ok tt, w1) ->
  exists t,
    last (trace w1) = Some (EvStart t) /\
    handleDieEvent env ev' w1 =
      (Ok tt, mkWorld (delete (getLabel heraHostname c) (registry w))
                      (trace w1 ++ [EvStop t])).
Proof.
  intros Hi Hid Hh Hp Hstart Hstop Hrun.
  destruct (handleStartEvent_started env ev c w w1 Hi Hh Hp Hrun)
    as (a & w2 & cert & _ & Hres & _ & ->).
  destruct (resolveHostname_effects env c (announced c w))
    as (evs & Hw2 & _).
  rewrite Hres in Hw2. simpl in Hw2. subst w2.
  set (t := NewTunnel (configOf c a) cert).
  exists t. rewrite Start_world, Hstart. simpl.
  split; [apply last_snoc|].
  rewrite <- Hid in Hi.
  erewrite handleDieEvent_found; [|exact Hi|exact Hh|].
  2:{ simpl. apply lookup_insert_eq. }
  rewrite Hstop. simpl. rewrite delete_insert_eq. reflexivity.
Qed.

Lemma start_then_die_witness :
  exists w1,
    handleStartEvent (scenario 1 None None) (startOf "A") serving
      = (Ok tt, w1) /\
    registry (handleDieEvent (scenario 1 None None) (dieOf "A") w1).2 = ∅.
Proof.
  eexists. split; [vm_compute; reflexivity|].
  edestruct (start_then_die (scenario 1 None None) (startOf "A")
               (dieOf "A") containerA serving) as (t & _ & Hdie).
  - reflexivity.
  - reflexivity.
  - vm_compute. discriminate.
  - vm_compute. discriminate.
  - reflexivity.
  - reflexivity.
  - vm_compute. reflexivity.
  - rewrite Hdie. reflexivity.
Defined.

(** X13. The certificate store is asked about the root domain only:
    two hostnames with the same root domain get the same answer from
    [getCertificate], certificate or error. *)
Theorem certificate_shared_by_root (env : Env) (h1 h2 root : string) :
  getRootDomain env h1 = inr root ->
  getRootDomain env h2 = inr root ->
  getCertificate env h1 = getCertificate env h2 /\
  (forall cert, getCertificate env h1 = inr cert <->
                FindCertificateForHost env root = inr cert).
Proof.
  intros H1 H2. unfold getCertificate. rewrite H1, H2.
  split; [reflexivity|].
  intros cert. destruct (FindCertificateForHost env root); split;
    congruence.
Qed.

Lemma certificate_shared_by_root_witness :
  getCertificate (scenario 0 None None) "a.example.com" =
    getCertificate (scenario 0 None None) "x.y.example.com" /\
  getCertificate (scenario 0 None None) "a.example.com" =
    inr {| CertDomain := "example.com" |}.
Proof.
  destruct (certificate_shared_by_root (scenario 0 None None)
              "a.example.com" "x.y.example.com" "example.com")
    as [Hsame Hcert]; [reflexivity | reflexivity |].
  split; [exact Hsame|]. apply Hcert. reflexivity.
Defined.
